(** * InfraKit: onboarding orchestrator, lock and cache client, record store
    and delivery-controller client.

    Shallow embedding of [src/cli/main.py] (class [InfraKitCLI]: [onboard],
    [status], [sync]), [src/cli/redis_manager.py] ([RedisManager]),
    [src/cli/db-manager.py] ([DBManager]), [src/cli/argocd-manager.py]
    ([ArgoCDManager]) and of the sibling draft [src/cli.py]
    ([store_application], [create_argocd_application]).

    Python values decoded from JSON are modelled by [json]; Python exceptions
    by [exc] (class name and [str(e)]); the methods run in a state and
    exception monad [M] over a [world] made of the Redis clock, the Redis
    keyspace (with per-key expiry) and a trace of the external calls made. *)

From stdpp Require Import base gmap strings list pretty.
From Stdlib Require Import ZArith.
Open Scope Z_scope.
Set Warnings "-register-all".

(* ------------------------------------------------------------------ *)
(** ** Python values *)

Inductive json :=
| JNull
| JBool (b : bool)
| JInt (z : Z)
| JStr (s : string)
| JList (xs : list json)
| JDict (kvs : list (string * json)).

(** Python truthiness of a decoded JSON value ([if x:] / [not x]). *)
Definition truthy (j : json) : bool :=
  match j with
  | JNull => false
  | JBool b => b
  | JInt z => negb (z =? 0)
  | JStr s => negb (bool_decide (s = ""%string))
  | JList xs => negb (bool_decide (xs = []))
  | JDict kvs => negb (bool_decide (kvs = []))
  end.

(** [d.get(k)] / [d[k]] lookup; [json.loads] keeps the last binding of a
    duplicated key, so the last match wins. *)
Fixpoint dict_lookup (k : string) (kvs : list (string * json)) : option json :=
  match kvs with
  | [] => None
  | (k', v) :: rest =>
      match dict_lookup k rest with
      | Some v' => Some v'
      | None => if bool_decide (k = k') then Some v else None
      end
  end.

Definition quote (s : string) : string := "'" +:+ s +:+ "'".

(** [str(x)] ([repr = false]) and [repr(x)] ([repr = true]) of a decoded
    value, as used by an f-string; containers show their items with [repr].
    String reprs do not escape embedded quotes. *)
Fixpoint py_render (repr : bool) (j : json) : string :=
  let join := foldr (fun item acc => match acc with
                                     | ""%string => item
                                     | _ => item +:+ ", " +:+ acc end) "" in
  match j with
  | JNull => "None"
  | JBool true => "True"
  | JBool false => "False"
  | JInt z => pretty z
  | JStr s => if repr then quote s else s
  | JList xs => "[" +:+ join (map (py_render true) xs) +:+ "]"
  | JDict kvs =>
      "{" +:+ join (map (fun kv => quote kv.1 +:+ ": " +:+ py_render true kv.2) kvs)
          +:+ "}"
  end.

Definition py_str : json -> string := py_render false.

(** [str(x)] of the result of [d.get(k)]: [None] when the key is absent. *)
Definition py_str_opt (o : option json) : string :=
  match o with Some j => py_str j | None => "None" end.

(** A raised exception: its class name and [str(e)]. *)
Record exc := Exc { exc_type : string; exc_msg : string }.

Inductive result (A : Type) :=
| Ok (a : A)
| Raise (e : exc).
Arguments Ok {A} a.
Arguments Raise {A} e.

(** [d.get(k)]: only dicts have [.get]. *)
Definition py_get (j : json) (k : string) : result (option json) :=
  match j with
  | JDict kvs => Ok (dict_lookup k kvs)
  | _ => Raise (Exc "AttributeError" "object has no attribute 'get'")
  end.

(** [d[k]]: a missing key raises [KeyError], whose [str] is the quoted key. *)
Definition py_getitem (j : json) (k : string) : result json :=
  match j with
  | JDict kvs =>
      match dict_lookup k kvs with
      | Some v => Ok v
      | None => Raise (Exc "KeyError" (quote k))
      end
  | _ => Raise (Exc "TypeError" "object is not subscriptable by str")
  end.

(* ------------------------------------------------------------------ *)
(** ** The world: Redis keyspace with expiry, clock, trace of calls *)

(** A Redis value: the lock marker ["1"] written by [acquire_lock], or the
    text [json.dumps(j)] written by [cache_application_state]. *)
Inductive rval :=
| VLockMarker
| VJson (j : json).

Record entry := Entry { e_val : rval; e_exp : option Z }.

(** Observable external calls, in the order they are made. *)
Inductive event :=
| ERedis (cmd : string) (key : string)
| EGo (command : string) (payload : json)
| ERecordStore (op : string) (name : string)
| EController (op : string) (name : string)
| ELog (level : string) (msg : string).

Record world := World { now : Z; keyspace : gmap string entry; trace : list event }.

Definition M (A : Type) : Type := world -> world * result A.

Global Instance M_ret : MRet M := fun A a w => (w, Ok a).
Global Instance M_bind : MBind M := fun A B f m w =>
  match m w with
  | (w', Ok a) => f a w'
  | (w', Raise e) => (w', Raise e)
  end.

Definition raise {A} (e : exc) : M A := fun w => (w, Raise e).

Definition lift {A} (r : result A) : M A := fun w => (w, r).

(** [try: body except Exception as e: handler(e)]. *)
Definition try_except {A} (body : M A) (handler : exc -> M A) : M A := fun w =>
  match body w with
  | (w', Raise e) => handler e w'
  | res => res
  end.

(** [try: body finally: fin]: [fin] runs on every exit; an exception raised
    by [fin] replaces the outcome of [body]. *)
Definition try_finally {A B} (body : M A) (fin : M B) : M A := fun w =>
  match body w with
  | (w', r) =>
      match fin w' with
      | (w'', Ok _) => (w'', r)
      | (w'', Raise e) => (w'', Raise e)
      end
  end.

Definition emit (ev : event) : M unit := fun w =>
  (World (now w) (keyspace w) (trace w ++ [ev]), Ok ()).

Definition set_keyspace (ks : gmap string entry) : M unit := fun w =>
  (World (now w) ks (trace w), Ok ()).

Definition get_world : M world := fun w => (w, Ok w).

Definition log (level msg : string) : M unit := emit (ELog level msg).

(** Time passing between two calls. *)
Definition advance (d : Z) : M unit := fun w =>
  (World (now w + d) (keyspace w) (trace w), Ok ()).

(* ------------------------------------------------------------------ *)
(** ** Redis commands *)

(** Redis expires a key only once the clock has passed its expiry time, so
    a key set at [t0] with [EX ttl] is still there at [t0 + ttl]. *)
Definition is_live (t : Z) (e : entry) : bool :=
  match e_exp e with
  | None => true
  | Some x => bool_decide (t <= x)
  end.

(** The value stored at [k] at time [t], an expired key being absent. *)
Definition live_lookup (t : Z) (ks : gmap string entry) (k : string) : option entry :=
  match ks !! k with
  | Some e => if is_live t e then Some e else None
  | None => None
  end.

(** [SET k v NX EX ttl]: [True] when set, [None] (here [false]) when the
    key already holds a live value. *)
Definition redis_set_nx_ex (k : string) (v : rval) (ttl : Z) : M bool :=
  emit (ERedis "SET NX EX" k);;
  w ← get_world;
  match live_lookup (now w) (keyspace w) k with
  | Some _ => mret false
  | None => set_keyspace (<[k := Entry v (Some (now w + ttl))]> (keyspace w));; mret true
  end.

(** [SETEX k ttl v]: unconditional overwrite with expiry. *)
Definition redis_setex (k : string) (ttl : Z) (v : rval) : M unit :=
  emit (ERedis "SETEX" k);;
  w ← get_world;
  set_keyspace (<[k := Entry v (Some (now w + ttl))]> (keyspace w)).

Definition redis_get (k : string) : M (option rval) :=
  emit (ERedis "GET" k);;
  w ← get_world;
  mret (e_val <$> live_lookup (now w) (keyspace w) k).

Definition redis_delete (k : string) : M unit :=
  emit (ERedis "DEL" k);;
  w ← get_world;
  set_keyspace (delete k (keyspace w)).

(** [json.loads] of a stored value. *)
Definition json_loads (v : rval) : json :=
  match v with
  | VLockMarker => JInt 1
  | VJson j => j
  end.

(* ------------------------------------------------------------------ *)
(** ** [RedisManager] (src/cli/redis_manager.py) *)

Definition state_key (app_name : string) : string := "app:" +:+ app_name +:+ ":state".
Definition lock_key_of (lock_name : string) : string := "lock:" +:+ lock_name.

Definition cache_default_ttl : Z := 3600.
Definition acquire_lock_default_ttl : Z := 30.

Definition cache_application_state (app_name : string) (state : json) (ttl : Z) : M unit :=
  redis_setex (state_key app_name) ttl (VJson state).

Definition get_cached_state (app_name : string) : M (option json) :=
  cached ← redis_get (state_key app_name);
  mret (json_loads <$> cached).

Definition acquire_lock (lock_name : string) (ttl : Z) : M bool :=
  redis_set_nx_ex (lock_key_of lock_name) VLockMarker ttl.

Definition release_lock (lock_name : string) : M unit :=
  redis_delete (lock_key_of lock_name).

(* ------------------------------------------------------------------ *)
(** ** Python call plumbing *)

(** Binding keyword arguments [kws] to a function with parameters
    [params] (all required): an unknown keyword or a missing parameter is a
    [TypeError] raised before the body runs. *)
Definition py_bind_kwargs (fname : string) (params kws : list string) : result unit :=
  match filter (fun k => k ∉ params) kws with
  | k :: _ => Raise (Exc "TypeError"
                 (fname +:+ "() got an unexpected keyword argument " +:+ quote k))
  | [] =>
      match filter (fun p => p ∉ kws) params with
      | p :: _ => Raise (Exc "TypeError"
                    (fname +:+ "() missing required argument: " +:+ quote p))
      | [] => Ok ()
      end
  end.

(** Attribute lookup on an object whose class and instance define [attrs]. *)
Definition py_getattr (cls : string) (attrs : list string) (a : string) : result unit :=
  if bool_decide (a ∈ attrs) then Ok ()
  else Raise (Exc "AttributeError"
                (quote cls +:+ " object has no attribute " +:+ quote a)).

(** Attributes of a [DBManager] instance: [conn] set in [__init__] and the
    single method [create_application] (src/cli/db-manager.py). *)
Definition dbmanager_attrs : list string := ["__init__"; "conn"; "create_application"].

(** Attributes of an [ArgoCDManager] instance (src/cli/argocd-manager.py). *)
Definition argocdmanager_attrs : list string :=
  ["__init__"; "api_url"; "auth"; "create_application"].

Definition opt_str (o : option string) : json :=
  match o with Some s => JStr s | None => JNull end.

(** The parsed [onboard] command line ([args] in src/cli/main.py). *)
Record onboard_args := OnboardArgs {
  a_name : string; a_cluster : string; a_namespace : string; a_chart : string;
  a_repo : string; a_path : string; a_revision : string;
  a_values : option string; a_kubeconfig : option string }.

Definition sync_lock_ttl : Z := 60.
Definition onboard_lock_ttl : Z := acquire_lock_default_ttl.

(* ------------------------------------------------------------------ *)
(** ** [InfraKitCLI] (src/cli/main.py) *)

Section Orchestrator.

(** The external Go binary: [subprocess.run([path, command], input=json)]
    followed by [json.loads(stdout)]; a non-zero exit raises
    [CalledProcessError], unparsable output [JSONDecodeError]. *)
Variable go_service : string -> json -> result json.

(** Outcome of the call [self.db.create_application(name=..., cluster=...,
    namespace=..., chart=..., repo=...)] at main.py:91. *)
Variable db_create_call : onboard_args -> result unit.

(** Outcome of [self.argocd.create_application(name=..., cluster=...,
    repo=..., path=..., revision=...)] at main.py:100. *)
Variable argocd_create_call : onboard_args -> result json.

(** Outcome of [self.argocd.sync_application(name)] at main.py:142. *)
Variable argocd_sync_call : string -> result json.

(** What a [get_application] method of the record store would return; it is
    only reached when [DBManager] has such an attribute. *)
Variable db_get_application_impl : string -> result (option json).

(** [_call_go_service] (its [logger.error] lines are not modelled). *)
Definition call_go_service (command : string) (payload : json) : M json :=
  emit (EGo command payload);;
  lift (go_service command payload).

Definition db_create_application (a : onboard_args) : M unit :=
  emit (ERecordStore "create_application" (a_name a));;
  lift (db_create_call a).

Definition argocd_create_application (a : onboard_args) : M json :=
  emit (EController "create_application" (a_name a));;
  lift (argocd_create_call a).

Definition argocd_sync_application (n : string) : M json :=
  emit (EController "sync_application" n);;
  lift (argocd_sync_call n).

Definition db_get_application (n : string) : M (option json) :=
  lift (py_getattr "DBManager" dbmanager_attrs "get_application");;
  emit (ERecordStore "get_application" n);;
  lift (db_get_application_impl n).

Definition truthy_opt (o : option json) : bool :=
  match o with Some j => truthy j | None => false end.

Definition generate_payload (a : onboard_args) : json :=
  JDict [("name", JStr (a_name a)); ("chart", JStr (a_chart a));
         ("values", opt_str (a_values a))].

Definition validate_payload (a : onboard_args) (manifest : json) : json :=
  JDict [("manifest", manifest); ("kubeconfig", opt_str (a_kubeconfig a))].

(** The body of the [try] block of [onboard] (main.py:72-115). *)
Definition onboard_body (a : onboard_args) : M unit :=
  log "INFO" ("Starting onboarding for " +:+ a_name a);;
  helm_result ← call_go_service "generate-helm" (generate_payload a);
  manifest ← lift (py_getitem helm_result "manifest");
  validation ← call_go_service "validate-k8s" (validate_payload a manifest);
  valid ← lift (py_get validation "valid");
  if negb (truthy_opt valid) then
    err ← lift (py_get validation "error");
    raise (Exc "ValueError" ("Manifest validation failed: " +:+ py_str_opt err))
  else
    db_create_application a;;
    argocd_create_application a;;
    cache_application_state (a_name a)
      (JDict [("status", JStr "active"); ("cluster", JStr (a_cluster a));
              ("last_operation", JStr "onboard")]) cache_default_ttl;;
    log "INFO" ("Successfully onboarded " +:+ a_name a).

(** The [except Exception as e] block (main.py:117-123). *)
Definition onboard_failed_state (e : exc) : json :=
  JDict [("status", JStr "failed"); ("error", JStr (exc_msg e))].

Definition onboard_handler (a : onboard_args) (e : exc) : M unit :=
  cache_application_state (a_name a) (onboard_failed_state e) cache_default_ttl;;
  log "ERROR" ("Onboarding failed: " +:+ exc_msg e);;
  raise e.

Definition onboard_lock_name (n : string) : string := "onboard:" +:+ n.

Definition onboard (a : onboard_args) : M unit :=
  let lock_key := onboard_lock_name (a_name a) in
  ok ← acquire_lock lock_key onboard_lock_ttl;
  if negb ok then
    log "ERROR" ("Onboarding already in progress for " +:+ a_name a)
  else
    try_finally (try_except (onboard_body a) (onboard_handler a))
                (release_lock lock_key).

(** [status] (main.py:127-134): the walrus test is Python truthiness. *)
Definition status (n : string) : M (option json) :=
  cached ← get_cached_state n;
  if truthy_opt cached then mret cached
  else
    log "INFO" "No cached status, checking database...";;
    db_get_application n.

Definition sync_lock_name (n : string) : string := "sync:" +:+ n.

(** [sync] (main.py:136-149). *)
Definition sync (n : string) : M unit :=
  ok ← acquire_lock (sync_lock_name n) sync_lock_ttl;
  if negb ok then raise (Exc "RuntimeError" ("Sync already in progress for " +:+ n))
  else
    try_finally
      (argocd_sync_application n;;
       cache_application_state n
         (JDict [("status", JStr "syncing"); ("last_sync", JStr "pending")])
         cache_default_ttl;;
       log "INFO" ("Sync triggered for " +:+ n))
      (release_lock (sync_lock_name n)).

End Orchestrator.

(** The two collaborator calls as main.py actually makes them: both pass
    keyword arguments the callee does not declare. *)
Definition main_db_create_call (a : onboard_args) : result unit :=
  py_bind_kwargs "DBManager.create_application" ["name"; "cluster"; "chart"]
    ["name"; "cluster"; "namespace"; "chart"; "repo"].

Definition main_argocd_create_call (a : onboard_args) : result json :=
  match py_bind_kwargs "ArgoCDManager.create_application" ["name"; "cluster"]
          ["name"; "cluster"; "repo"; "path"; "revision"] with
  | Raise e => Raise e
  | Ok _ => Ok JNull  (* not reached: the binding always fails *)
  end.

(** [self.argocd.sync_application(name)] in [sync]: [ArgoCDManager] defines
    no such method, so the attribute lookup raises. *)
Definition main_argocd_sync_call (n : string) : result json :=
  match py_getattr "ArgoCDManager" argocdmanager_attrs "sync_application" with
  | Raise e => Raise e
  | Ok _ => Ok JNull  (* not reached: the attribute is missing *)
  end.

(* ------------------------------------------------------------------ *)
(** ** The [applications] table of the Record Store *)

(** A row; columns an [INSERT] does not list are [NULL] ([None]).
    [updated_at] is taken to default to [NOW()] on insert. *)
Record row := Row {
  r_name : string; r_cluster : string; r_namespace : option string;
  r_helm_chart : string; r_git_repo : option string;
  r_git_revision : option string; r_git_path : option string;
  r_updated_at : Z }.

(** [name] carries the unique constraint that [ON CONFLICT (name)] needs. *)
Definition name_taken (n : string) (tbl : list row) : bool :=
  existsb (fun r => bool_decide (r_name r = n)) tbl.

Definition unique_violation : exc :=
  Exc "UniqueViolation" "duplicate key value violates unique constraint on name".

(** [DBManager.create_application(name, cluster, chart)]
    (src/cli/db-manager.py): a plain [INSERT], then commit. *)
Definition dbmanager_create_application (name cluster chart : string)
    (t : Z) (tbl : list row) : result (list row) :=
  if name_taken name tbl then Raise unique_violation
  else Ok (tbl ++ [Row name cluster None chart None None None t]).

(** [store_application] (src/cli.py): [INSERT ... ON CONFLICT (name) DO
    UPDATE SET] every other column and [updated_at = NOW()]. *)
Definition store_application (a : onboard_args) (t : Z) (tbl : list row) : list row :=
  let fresh := Row (a_name a) (a_cluster a) (Some (a_namespace a)) (a_chart a)
                   (Some (a_repo a)) (Some (a_revision a)) (Some (a_path a)) t in
  if name_taken (a_name a) tbl then
    map (fun r => if bool_decide (r_name r = a_name a) then fresh else r) tbl
  else tbl ++ [fresh].

Definition rows_named (n : string) (tbl : list row) : list row :=
  filter (fun r => r_name r = n) tbl.

(* ------------------------------------------------------------------ *)
(** ** Application manifests posted to [/api/v1/applications] *)

(** [d[k1][k2]...] on a nested dict, [None] when a key is missing. *)
Fixpoint json_path (ks : list string) (j : json) : option json :=
  match ks with
  | [] => Some j
  | k :: rest =>
      match j with
      | JDict kvs => dict_lookup k kvs ≫= json_path rest
      | _ => None
      end
  end.

(** [ArgoCDManager.create_application(name, cluster)]
    (src/cli/argocd-manager.py): the body it posts. *)
Definition argocd_manager_manifest (name cluster : string) : json :=
  JDict [("apiVersion", JStr "argoproj.io/v1alpha1");
         ("kind", JStr "Application");
         ("metadata", JDict [("name", JStr name)]);
         ("spec", JDict [("destination",
                          JDict [("server", JStr ("https://" +:+ cluster +:+ ".example.com"));
                                 ("namespace", JStr "default")])])].

(** [create_argocd_application(args, manifest_path)] (src/cli.py): the body
    it posts; [argocd_namespace] is [config["argocd"]["namespace"]]. *)
Definition cli_argocd_manifest (argocd_namespace : string) (a : onboard_args) : json :=
  JDict [("apiVersion", JStr "argoproj.io/v1alpha1");
         ("kind", JStr "Application");
         ("metadata", JDict [("name", JStr (a_name a)); ("namespace", JStr argocd_namespace)]);
         ("spec", JDict [
            ("project", JStr "default");
            ("source", JDict [("repoURL", JStr (a_repo a));
                              ("targetRevision", JStr (a_revision a));
                              ("path", JStr (a_path a))]);
            ("destination", JDict [("server", JStr "https://kubernetes.default.svc");
                                   ("namespace", JStr (a_namespace a))]);
            ("syncPolicy", JDict [("automated", JDict [("prune", JBool true);
                                                       ("selfHeal", JBool true)])])])].

(** A manifest encoding the git source, destination namespace and the
    automated prune + self-heal policy of [a]. *)
Definition encodes_registration (a : onboard_args) (m : json) : Prop :=
  json_path ["spec"; "source"; "repoURL"] m = Some (JStr (a_repo a)) /\
  json_path ["spec"; "source"; "targetRevision"] m = Some (JStr (a_revision a)) /\
  json_path ["spec"; "source"; "path"] m = Some (JStr (a_path a)) /\
  json_path ["spec"; "destination"; "namespace"] m = Some (JStr (a_namespace a)) /\
  json_path ["spec"; "syncPolicy"; "automated"; "prune"] m = Some (JBool true) /\
  json_path ["spec"; "syncPolicy"; "automated"; "selfHeal"] m = Some (JBool true).

(* ------------------------------------------------------------------ *)
(** ** Scenarios *)


Definition svc_a : onboard_args :=
  OnboardArgs "svc-a" "prod" "team-a" "charts/svc" "git@example.com:infra.git"
              "apps/svc-a" "main" None None.

(** A Go binary that renders a manifest and answers the validation request
    with [{"valid": valid, "error": "bad values"}]. *)
Definition go_stub (valid : bool) (command : string) (payload : json) : result json :=
  if bool_decide (command = "generate-helm") then
    Ok (JDict [("manifest", JStr "kind: Deployment")])
  else Ok (JDict [("valid", JBool valid); ("error", JStr "bad values")]).

Definition sync_ok (n : string) : result json := Ok (JDict []).

Definition empty_world : world := World 0 ∅ [].

(* ------------------------------------------------------------------ *)
(** ** Configuration loading *)

(** [load_config()] (src/config/settings.py).  [env] is
    [os.environ.get('INFRIKIT_CONFIG')], [home] what [~] expands to, [fs]
    the readable files and their text; [yaml_safe_load] is
    [yaml.safe_load], raising [YAMLError] on malformed input. *)
Definition settings_load_config (yaml_safe_load : string -> result json)
    (env : option string) (home : string) (fs : gmap string string) : result json :=
  let config_path := match env with
                     | Some p => p
                     | None => home +:+ "/.infrakit/config.yaml"
                     end in
  match fs !! config_path with
  | None => Raise (Exc "FileNotFoundError" ("Config file not found: " +:+ config_path))
  | Some text =>
      match yaml_safe_load text with
      | Ok j => Ok j
      | Raise e =>
          if bool_decide (exc_type e = "YAMLError")
          then Raise (Exc "RuntimeError" ("Failed to parse YAML config: " +:+ exc_msg e))
          else Raise e
      end
  end.

(** [sys.exit(1)]: a [SystemExit], which [except Exception] does not catch. *)
Definition system_exit : exc := Exc "SystemExit" "1".

(** [x in container] for a string [x]: key of a dict, element of a list,
    substring of a string; other values are not iterable. *)
Definition py_contains (x : string) (container : json) : result bool :=
  match container with
  | JDict kvs => Ok (bool_decide (x ∈ kvs.*1))
  | JList xs => Ok (existsb (fun j => match j with
                                      | JStr s => bool_decide (s = x)
                                      | _ => false end) xs)
  | JStr s => Ok (if String.index 0 x s then true else false)
  | _ => Raise (Exc "TypeError" "argument is not iterable")
  end.

(** [all(section in config for section in sections)], short-circuiting. *)
Fixpoint py_all_in (sections : list string) (config : json) : result bool :=
  match sections with
  | [] => Ok true
  | s :: rest =>
      match py_contains s config with
      | Ok true => py_all_in rest config
      | Ok false => Ok false
      | Raise e => Raise e
      end
  end.

Definition required_sections : list string := ["redis"; "postgresql"; "argocd"; "go_service"].

(** [InfraKitCLI._load_config] (main.py:33-43): any [Exception] from loading
    or checking is logged and turned into [sys.exit(1)]. *)
Definition main_load_config (loaded : result json) : result json :=
  match loaded with
  | Raise _ => Raise system_exit
  | Ok config =>
      match py_all_in required_sections config with
      | Ok true => Ok config
      | Ok false => Raise system_exit   (* ValueError, caught *)
      | Raise _ => Raise system_exit
      end
  end.

(** Process exit status of [main()] (main.py:182-188) for a command outcome:
    a normal return is 0, an [Exception] is logged and turned into
    [sys.exit(1)], and every [SystemExit] raised in this code carries 1. *)
Definition exit_status {A} (r : result A) : Z :=
  match r with
  | Ok _ => 0
  | Raise _ => 1
  end.

(* ------------------------------------------------------------------ *)
(** ** The draft [InfraKitCLI] of src/cli.py *)

(** An HTTP answer: [status_code], [text] and the decoded [json()]. *)
Record response := Response { status_code : Z; text : string; body : json }.

(** The draft works on the Record Store table directly and records the
    bodies it posts; its [logger] lines are not modelled. *)
Record cli_world := CliWorld {
  c_now : Z; c_table : list row; c_posts : list (string * json);
  c_trace : list event; c_stdout : list string }.

Definition CM (A : Type) : Type := cli_world -> cli_world * result A.

Global Instance CM_ret : MRet CM := fun A a w => (w, Ok a).
Global Instance CM_bind : MBind CM := fun A B f m w =>
  match m w with
  | (w', Ok a) => f a w'
  | (w', Raise e) => (w', Raise e)
  end.

Definition c_raise {A} (e : exc) : CM A := fun w => (w, Raise e).
Definition c_lift {A} (r : result A) : CM A := fun w => (w, r).

Definition c_emit (ev : event) : CM unit := fun w =>
  (CliWorld (c_now w) (c_table w) (c_posts w) (c_trace w ++ [ev]) (c_stdout w), Ok ()).

Definition c_post (url : string) (b : json) : CM unit := fun w =>
  (CliWorld (c_now w) (c_table w) (c_posts w ++ [(url, b)]) (c_trace w) (c_stdout w), Ok ()).

Definition c_print (line : string) : CM unit := fun w =>
  (CliWorld (c_now w) (c_table w) (c_posts w) (c_trace w) (c_stdout w ++ [line]), Ok ()).

(** [d[k1][k2]...]. *)
Fixpoint py_getpath (ks : list string) (j : json) : result json :=
  match ks with
  | [] => Ok j
  | k :: rest =>
      match py_getitem j k with
      | Ok v => py_getpath rest v
      | Raise e => Raise e
      end
  end.

Section CliDraft.

(** [config["argocd"]["apiUrl"]] and [config["argocd"]["namespace"]]. *)
Variable api_url : string.
Variable argocd_namespace : string.

(** The Go binary run with [check=True] then [json.loads(stdout)]. *)
Variable go_run : string -> json -> result json.

(** [e.stderr.decode()] for a [CalledProcessError] [e]: UTF-8 decoding of
    the captured bytes, which raises [UnicodeDecodeError] on bytes that are
    not UTF-8. *)
Variable stderr_decode : exc -> result string.

(** [requests.post(url, json=body, auth=...)] and [requests.get(url, ...)]. *)
Variable http_post : string -> json -> result response.
Variable http_get : string -> result response.

(** [call_go_service] (cli.py:60-73): only [CalledProcessError] is caught;
    the handler decodes the captured stderr for its log line, then ends the
    process.  A decoding error raised inside the handler propagates. *)
Definition cli_call_go_service (command : string) (args : json) : CM json :=
  c_emit (EGo command args);;
  match go_run command args with
  | Ok j => mret j
  | Raise e =>
      if bool_decide (exc_type e = "CalledProcessError") then
        err ← c_lift (stderr_decode e);
        c_emit (ELog "ERROR" ("Go service failed: " +:+ err));;
        c_raise system_exit
      else c_raise e
  end.

(** [store_application] (cli.py:95-113) on the live table. *)
Definition cli_store_application (a : onboard_args) : CM unit := fun w =>
  (CliWorld (c_now w) (store_application a (c_now w) (c_table w)) (c_posts w)
            (c_trace w ++ [ERecordStore "upsert" (a_name a)]) (c_stdout w), Ok ()).

Definition applications_url : string := api_url +:+ "/api/v1/applications".

(** [create_argocd_application] (cli.py:115-157); [manifest_path] is not
    used by the body. *)
Definition cli_create_argocd_application (a : onboard_args) (manifest_path : json) : CM unit :=
  let app_manifest := cli_argocd_manifest argocd_namespace a in
  c_post applications_url app_manifest;;
  resp ← c_lift (http_post applications_url app_manifest);
  if bool_decide (status_code resp = 200) then mret ()
  else
    c_emit (ELog "ERROR" ("ArgoCD API error: " +:+ text resp));;
    c_raise system_exit.

Definition cli_generate_payload (a : onboard_args) : json :=
  JDict [("name", JStr (a_name a)); ("chart", JStr (a_chart a));
         ("values", opt_str (a_values a));
         ("output_dir", JStr ("generated/" +:+ a_name a))].

(** [onboard_application] (cli.py:75-93); [a_values] is [args.values_file]. *)
Definition cli_onboard_application (a : onboard_args) : CM unit :=
  c_emit (ELog "INFO" ("Starting onboarding for " +:+ a_name a));;
  cli_store_application a;;
  helm_result ← cli_call_go_service "generate-helm" (cli_generate_payload a);
  manifest_path ← c_lift (py_getitem helm_result "manifest_path");
  cli_create_argocd_application a manifest_path;;
  c_emit (ELog "INFO" ("Successfully onboarded " +:+ a_name a)).

(** [get_application_status] (cli.py:178-198). *)
Definition cli_get_application_status (n : string) : CM unit :=
  resp ← c_lift (http_get (api_url +:+ "/api/v1/applications/" +:+ n));
  if negb (bool_decide (status_code resp = 200)) then
    c_emit (ELog "ERROR" ("ArgoCD status check failed: " +:+ text resp));;
    c_raise system_exit
  else
    let st := body resp in
    c_print ("Status for " +:+ n +:+ ":");;
    health ← c_lift (py_getpath ["status"; "health"; "status"] st);
    c_print ("  Health: " +:+ py_str health);;
    sync_st ← c_lift (py_getpath ["status"; "sync"; "status"] st);
    c_print ("  Sync: " +:+ py_str sync_st);;
    rev ← c_lift (py_getpath ["status"; "sync"; "revision"] st);
    c_print ("  Revision: " +:+ py_str rev).

End CliDraft.

(* ------------------------------------------------------------------ *)
(** ** Snapshots written by the orchestrator, and further fixtures *)

Definition active_state (a : onboard_args) : json :=
  JDict [("status", JStr "active"); ("cluster", JStr (a_cluster a));
         ("last_operation", JStr "onboard")].

Definition syncing_state : json :=
  JDict [("status", JStr "syncing"); ("last_sync", JStr "pending")].

Definition is_controller_call (ev : event) : bool :=
  match ev with EController _ _ => true | _ => false end.

Definition cached_world : world :=
  World 0 {[state_key "svc-a" := Entry (VJson (active_state svc_a)) (Some 3600)]} [].

Definition both_locks_world : world :=
  World 0 {[lock_key_of (onboard_lock_name "svc-a") := Entry VLockMarker (Some 30);
            lock_key_of (sync_lock_name "svc-a") := Entry VLockMarker (Some 60)]} [].

Definition empty_cli_world : cli_world := CliWorld 0 [] [] [] [].

Definition go_exit_1 (command : string) (payload : json) : result json :=
  Raise (Exc "CalledProcessError" "returned non-zero exit status 1").

(** Captured stderr that decodes as UTF-8. *)
Definition stderr_utf8 (e : exc) : result string := Ok "Error: chart not found".

Definition go_manifest_path (command : string) (payload : json) : result json :=
  Ok (JDict [("manifest_path", JStr "generated/svc-a")]).

Definition post_created (url : string) (b : json) : result response :=
  Ok (Response 201 "created" (JDict [])).

Definition get_without_health (url : string) : result response :=
  Ok (Response 200 "" (JDict [("status", JDict [("sync", JDict [("status", JStr "Synced")])])])).

(* ================================================================== *)
(** * Properties *)

Lemma lock_state_key_ne l n : lock_key_of l <> state_key n.
Proof. unfold lock_key_of, state_key. cbn. intros H. inversion H. Qed.


(** Whatever [body] does, [finally: release_lock(l)] leaves no lock key. *)
Lemma release_lock_clears {A} (body : M A) l w :
  keyspace (fst (try_finally body (release_lock l) w)) !! lock_key_of l = None.
Proof.
  cbv [try_finally release_lock redis_delete mbind M_bind emit get_world set_keyspace].
  destruct (body w) as [w1 r]. cbn. apply lookup_delete_eq.
Qed.

Ltac run_m :=
  cbv [mbind M_bind mret M_ret emit get_world log set_keyspace lift raise
       try_except try_finally advance onboard onboard_body onboard_handler
       acquire_lock release_lock redis_set_nx_ex redis_setex redis_delete redis_get
       cache_application_state get_cached_state call_go_service
       db_create_application argocd_create_application]; cbn [now keyspace trace].

(** C1. When the lock is taken and the validator answers with a falsy
    [valid] and an error message [msg], [onboard] raises a [ValueError]
    whose text is ["Manifest validation failed: " ++ msg]; the only calls
    made are the lock, the two Go-service calls, the cache write of the
    [failed] snapshot carrying that text, and the lock release: no Record
    Store and no Delivery Controller call. *)
Theorem onboard_invalid_manifest_aborts go dbc argc (a : onboard_args) (w : world)
    helm manifest validation v msg :
  live_lookup (now w) (keyspace w) (lock_key_of (onboard_lock_name (a_name a))) = None ->
  go "generate-helm" (generate_payload a) = Ok helm ->
  py_getitem helm "manifest" = Ok manifest ->
  go "validate-k8s" (validate_payload a manifest) = Ok validation ->
  py_get validation "valid" = Ok v -> truthy_opt v = false ->
  py_get validation "error" = Ok (Some (JStr msg)) ->
  let e := Exc "ValueError" ("Manifest validation failed: " +:+ msg) in
  let lk := lock_key_of (onboard_lock_name (a_name a)) in
  exists w',
    onboard go dbc argc a w = (w', Raise e) /\
    trace w' = trace w ++
      [ERedis "SET NX EX" lk;
       ELog "INFO" ("Starting onboarding for " +:+ a_name a);
       EGo "generate-helm" (generate_payload a);
       EGo "validate-k8s" (validate_payload a manifest);
       ERedis "SETEX" (state_key (a_name a));
       ELog "ERROR" ("Onboarding failed: " +:+ exc_msg e);
       ERedis "DEL" lk] /\
    live_lookup (now w') (keyspace w') (state_key (a_name a)) =
      Some (Entry (VJson (onboard_failed_state e)) (Some (now w + cache_default_ttl))) /\
    keyspace w' !! lk = None.
Proof.
  intros Hl Hg Hm Hv Hvalid Hf Herr e lk.
  run_m. rewrite Hl, Hg. cbn. rewrite Hm. cbn. rewrite Hv. cbn. rewrite Hvalid. cbn.
  rewrite Hf. cbn. rewrite Herr. cbn.
  eexists; split; [reflexivity|]. cbn [now keyspace trace].
  split; [rewrite <- !app_assoc; reflexivity|]. split.
  - unfold live_lookup.
    rewrite lookup_delete_ne by (apply lock_state_key_ne).
    rewrite lookup_insert_eq. unfold is_live. cbn.
    rewrite bool_decide_true by (unfold cache_default_ttl; lia). reflexivity.
  - apply lookup_delete_eq.
Qed.

Lemma onboard_invalid_manifest_aborts_witness :
  let e := Exc "ValueError" ("Manifest validation failed: " +:+ "bad values") in
  let lk := lock_key_of (onboard_lock_name (a_name svc_a)) in
  exists w',
    onboard (go_stub false) main_db_create_call main_argocd_create_call svc_a empty_world
      = (w', Raise e) /\
    trace w' = trace empty_world ++
      [ERedis "SET NX EX" lk;
       ELog "INFO" ("Starting onboarding for " +:+ a_name svc_a);
       EGo "generate-helm" (generate_payload svc_a);
       EGo "validate-k8s" (validate_payload svc_a (JStr "kind: Deployment"));
       ERedis "SETEX" (state_key (a_name svc_a));
       ELog "ERROR" ("Onboarding failed: " +:+ exc_msg e);
       ERedis "DEL" lk] /\
    live_lookup (now w') (keyspace w') (state_key (a_name svc_a)) =
      Some (Entry (VJson (onboard_failed_state e)) (Some (now empty_world + cache_default_ttl))) /\
    keyspace w' !! lk = None.
Proof.
  apply (onboard_invalid_manifest_aborts (go_stub false) main_db_create_call
           main_argocd_create_call svc_a empty_world
           (JDict [("manifest", JStr "kind: Deployment")]) (JStr "kind: Deployment")
           (JDict [("valid", JBool false); ("error", JStr "bad values")])
           (Some (JBool false)) "bad values"); reflexivity.
Defined.

(** C2. Once the lock is taken, if the saga body (generation, validation,
    record write, controller registration) raises [e], [onboard] writes the
    [failed] snapshot whose [error] is [str(e)], logs, releases the lock and
    re-raises the same [e]; the snapshot is live when the call returns. *)
Theorem onboard_failure_cached_then_reraised go dbc argc (a : onboard_args)
    (w w0 w1 : world) (e : exc) :
  acquire_lock (onboard_lock_name (a_name a)) onboard_lock_ttl w = (w0, Ok true) ->
  onboard_body go dbc argc a w0 = (w1, Raise e) ->
  let lk := lock_key_of (onboard_lock_name (a_name a)) in
  let snapshot := Entry (VJson (onboard_failed_state e)) (Some (now w1 + cache_default_ttl)) in
  onboard go dbc argc a w =
    (World (now w1) (delete lk (<[state_key (a_name a) := snapshot]> (keyspace w1)))
       (trace w1 ++ [ERedis "SETEX" (state_key (a_name a));
                     ELog "ERROR" ("Onboarding failed: " +:+ exc_msg e);
                     ERedis "DEL" lk]),
     Raise e) /\
  live_lookup (now w1) (delete lk (<[state_key (a_name a) := snapshot]> (keyspace w1)))
    (state_key (a_name a)) = Some snapshot.
Proof.
  intros Hacq Hbody lk snapshot. split.
  - unfold onboard. cbv [mbind M_bind]. rewrite Hacq. cbn.
    cbv [try_finally try_except]. rewrite Hbody.
    cbv [onboard_handler cache_application_state redis_setex release_lock redis_delete
         log mbind M_bind emit get_world set_keyspace raise].
    cbn [now keyspace trace]. rewrite <- !app_assoc. reflexivity.
  - unfold live_lookup.
    rewrite lookup_delete_ne by (apply lock_state_key_ne).
    rewrite lookup_insert_eq. unfold is_live, snapshot. cbn.
    rewrite bool_decide_true by (unfold cache_default_ttl; lia). reflexivity.
Qed.

(** With main.py's own record-store call, a valid manifest fails at step 4
    with the [TypeError] of the call binding. *)
Lemma onboard_failure_cached_then_reraised_witness :
  exists w0 w1 e,
    acquire_lock (onboard_lock_name (a_name svc_a)) onboard_lock_ttl empty_world
      = (w0, Ok true) /\
    onboard_body (go_stub true) main_db_create_call main_argocd_create_call svc_a w0
      = (w1, Raise e) /\
    let lk := lock_key_of (onboard_lock_name (a_name svc_a)) in
    let snapshot := Entry (VJson (onboard_failed_state e)) (Some (now w1 + cache_default_ttl)) in
    onboard (go_stub true) main_db_create_call main_argocd_create_call svc_a empty_world =
      (World (now w1) (delete lk (<[state_key (a_name svc_a) := snapshot]> (keyspace w1)))
         (trace w1 ++ [ERedis "SETEX" (state_key (a_name svc_a));
                       ELog "ERROR" ("Onboarding failed: " +:+ exc_msg e);
                       ERedis "DEL" lk]),
       Raise e) /\
    live_lookup (now w1) (delete lk (<[state_key (a_name svc_a) := snapshot]> (keyspace w1)))
      (state_key (a_name svc_a)) = Some snapshot.
Proof.
  do 3 eexists. split; [reflexivity|]. split; [reflexivity|].
  apply (onboard_failure_cached_then_reraised _ _ _ _ _
           (fst (acquire_lock (onboard_lock_name (a_name svc_a)) onboard_lock_ttl empty_world)));
    reflexivity.
Defined.

(** C3. On every exit of [onboard] and of [sync] that took its lock --
    normal return or any exception -- the lock key is gone from Redis. *)
Theorem locks_released_on_every_exit go dbc argc sc (a : onboard_args) (n : string)
    (w w0 v v0 : world) :
  acquire_lock (onboard_lock_name (a_name a)) onboard_lock_ttl w = (w0, Ok true) ->
  acquire_lock (sync_lock_name n) sync_lock_ttl v = (v0, Ok true) ->
  keyspace (fst (onboard go dbc argc a w)) !! lock_key_of (onboard_lock_name (a_name a)) = None /\
  keyspace (fst (sync sc n v)) !! lock_key_of (sync_lock_name n) = None.
Proof.
  intros Ho Hs. split.
  - unfold onboard. cbv [mbind M_bind]. rewrite Ho. cbn. apply release_lock_clears.
  - unfold sync. cbv [mbind M_bind]. rewrite Hs. cbn. apply release_lock_clears.
Qed.

Lemma locks_released_on_every_exit_witness :
  exists w0 v0,
    acquire_lock (onboard_lock_name (a_name svc_a)) onboard_lock_ttl empty_world = (w0, Ok true) /\
    acquire_lock (sync_lock_name "svc-a") sync_lock_ttl empty_world = (v0, Ok true) /\
    keyspace (fst (onboard (go_stub true) main_db_create_call main_argocd_create_call
                     svc_a empty_world)) !! lock_key_of (onboard_lock_name (a_name svc_a)) = None /\
    keyspace (fst (sync sync_ok "svc-a" empty_world)) !! lock_key_of (sync_lock_name "svc-a") = None.
Proof.
  set (w0 := fst (acquire_lock (onboard_lock_name (a_name svc_a)) onboard_lock_ttl empty_world)).
  set (v0 := fst (acquire_lock (sync_lock_name "svc-a") sync_lock_ttl empty_world)).
  exists w0, v0. split; [reflexivity|]. split; [reflexivity|].
  apply (locks_released_on_every_exit (go_stub true) main_db_create_call
           main_argocd_create_call sync_ok svc_a "svc-a" empty_world w0 empty_world v0);
    reflexivity.
Defined.

(** C4. When the onboarding lock of [a_name a] is live, [onboard] returns
    normally after logging "Onboarding already in progress": the keyspace
    is unchanged and the only calls are the failed [SET NX] and the log
    line -- no Go service, Record Store, Delivery Controller or cache write. *)
Theorem onboard_lock_held_no_effects go dbc argc (a : onboard_args) (w : world) e :
  live_lookup (now w) (keyspace w) (lock_key_of (onboard_lock_name (a_name a))) = Some e ->
  onboard go dbc argc a w =
    (World (now w) (keyspace w)
       (trace w ++ [ERedis "SET NX EX" (lock_key_of (onboard_lock_name (a_name a)));
                    ELog "ERROR" ("Onboarding already in progress for " +:+ a_name a)]), Ok ()).
Proof.
  intros H. unfold onboard, acquire_lock, redis_set_nx_ex.
  cbv [mbind M_bind mret M_ret emit get_world log].
  cbn [now keyspace trace]. rewrite H. cbn. rewrite <- app_assoc. reflexivity.
Qed.

Definition held_world : world :=
  World 0 {[lock_key_of (onboard_lock_name "svc-a") := Entry VLockMarker (Some 30)]} [].

Lemma onboard_lock_held_no_effects_witness :
  onboard (go_stub true) main_db_create_call main_argocd_create_call svc_a held_world =
    (World (now held_world) (keyspace held_world)
       (trace held_world ++
          [ERedis "SET NX EX" (lock_key_of (onboard_lock_name (a_name svc_a)));
           ELog "ERROR" ("Onboarding already in progress for " +:+ a_name svc_a)]), Ok ()).
Proof.
  apply (onboard_lock_held_no_effects _ _ _ svc_a held_world
           (Entry VLockMarker (Some 30))); reflexivity.
Defined.



Lemma rows_named_replace n (fresh : row) tbl :
  r_name fresh = n ->
  rows_named n (map (fun r => if bool_decide (r_name r = n) then fresh else r) tbl) =
    (fun _ => fresh) <$> rows_named n tbl.
Proof.
  intros Hf. unfold rows_named. induction tbl as [|r tbl IH]; [done|].
  cbn [map]. destruct (decide (r_name r = n)) as [Heq|Hne].
  - rewrite bool_decide_true by done.
    rewrite !filter_cons_True by done. cbn. rewrite IH. done.
  - rewrite bool_decide_false by done.
    rewrite !filter_cons_False by done. done.
Qed.

Lemma name_taken_rows_named n tbl :
  name_taken n tbl = false <-> rows_named n tbl = [].
Proof.
  unfold name_taken, rows_named. induction tbl as [|r tbl IH]; [done|].
  cbn [existsb]. destruct (decide (r_name r = n)) as [Heq|Hne].
  - rewrite bool_decide_true by done. rewrite filter_cons_True by done. done.
  - rewrite bool_decide_false by done. rewrite filter_cons_False by done. done.
Qed.

(** The sibling [store_application] (src/cli.py) is an upsert: from a table
    with at most one row per name, it leaves exactly one row named
    [a_name a], holding the new values and time. *)
Lemma store_application_upsert (a : onboard_args) t tbl :
  (length (rows_named (a_name a) tbl) <= 1)%nat ->
  rows_named (a_name a) (store_application a t tbl) =
    [Row (a_name a) (a_cluster a) (Some (a_namespace a)) (a_chart a)
         (Some (a_repo a)) (Some (a_revision a)) (Some (a_path a)) t].
Proof.
  intros Hle. unfold store_application.
  destruct (name_taken (a_name a) tbl) eqn:Ht.
  - rewrite rows_named_replace by done.
    destruct (rows_named (a_name a) tbl) as [|r [|r' rs]] eqn:Hr.
    + apply name_taken_rows_named in Hr. congruence.
    + done.
    + cbn in Hle. lia.
  - apply name_taken_rows_named in Ht. unfold rows_named in *.
    rewrite filter_app, Ht. rewrite filter_cons_True by done. done.
Qed.

(** C6 (as the code stands).  The record write reached from [onboard] is
    [DBManager.create_application], a plain [INSERT]: the first call for
    ["svc-a"] adds a row, a second call for ["svc-a"] with another cluster
    raises the unique violation instead of updating.  The call site in
    main.py does not even bind: it passes [namespace] and [repo], which
    [create_application(name, cluster, chart)] does not declare. *)
Theorem dbmanager_create_application_not_upsert :
  dbmanager_create_application "svc-a" "prod" "charts/svc" 0 [] =
    Ok [Row "svc-a" "prod" None "charts/svc" None None None 0] /\
  dbmanager_create_application "svc-a" "staging" "charts/svc" 1
    [Row "svc-a" "prod" None "charts/svc" None None None 0] = Raise unique_violation /\
  main_db_create_call svc_a =
    Raise (Exc "TypeError" "DBManager.create_application() got an unexpected keyword argument 'namespace'").
Proof. split; [|split]; reflexivity. Qed.

(** C7 (as the code stands).  With no live snapshot for [n], [status]
    falls back to [self.db.get_application(n)], which [DBManager] does not
    define: the call raises [AttributeError] whatever the record store
    holds, instead of returning a record or an "unknown application"
    result. *)
Theorem status_cache_miss_raises gi (n : string) (w : world) :
  live_lookup (now w) (keyspace w) (state_key n) = None ->
  status gi n w =
    (World (now w) (keyspace w)
       (trace w ++ [ERedis "GET" (state_key n);
                    ELog "INFO" "No cached status, checking database..."]),
     Raise (Exc "AttributeError" "'DBManager' object has no attribute 'get_application'")).
Proof.
  intros H. cbv [status get_cached_state redis_get db_get_application log lift
                 mbind M_bind mret M_ret emit get_world].
  cbn [now keyspace trace]. rewrite H. cbn.
  assert (Ha : py_getattr "DBManager" dbmanager_attrs "get_application" =
            Raise (Exc "AttributeError" "'DBManager' object has no attribute 'get_application'"))
    by reflexivity.
  rewrite Ha. rewrite <- app_assoc. reflexivity.
Qed.

Lemma status_cache_miss_raises_witness :
  status (fun _ => Ok None) "svc-a" empty_world =
    (World (now empty_world) (keyspace empty_world)
       (trace empty_world ++ [ERedis "GET" (state_key "svc-a");
                              ELog "INFO" "No cached status, checking database..."]),
     Raise (Exc "AttributeError" "'DBManager' object has no attribute 'get_application'")).
Proof. apply (status_cache_miss_raises (fun _ => Ok None) "svc-a" empty_world); reflexivity. Defined.

(** C8, refuted: the sync lock TTL is not shorter than the onboarding one. *)
Lemma sync_lock_ttl_not_shorter : ~ (sync_lock_ttl < onboard_lock_ttl).
Proof. unfold sync_lock_ttl, onboard_lock_ttl, acquire_lock_default_ttl. lia. Qed.

(** C8, as amended: [onboard] takes its lock with [acquire_lock]'s default
    TTL of 30 seconds and [sync] with 60 seconds, so the sync lock lives
    strictly longer; the lock entries they write expire at [now + 30] and
    [now + 60]. *)
Theorem sync_lock_ttl_longer (n : string) (w : world) :
  live_lookup (now w) (keyspace w) (lock_key_of (onboard_lock_name n)) = None ->
  live_lookup (now w) (keyspace w) (lock_key_of (sync_lock_name n)) = None ->
  onboard_lock_ttl = 30 /\ sync_lock_ttl = 60 /\ onboard_lock_ttl < sync_lock_ttl /\
  keyspace (fst (acquire_lock (onboard_lock_name n) onboard_lock_ttl w))
    !! lock_key_of (onboard_lock_name n) = Some (Entry VLockMarker (Some (now w + 30))) /\
  keyspace (fst (acquire_lock (sync_lock_name n) sync_lock_ttl w))
    !! lock_key_of (sync_lock_name n) = Some (Entry VLockMarker (Some (now w + 60))).
Proof.
  intros Ho Hs.
  split; [reflexivity|]. split; [reflexivity|].
  split; [unfold onboard_lock_ttl, acquire_lock_default_ttl, sync_lock_ttl; lia|].
  cbv [acquire_lock redis_set_nx_ex mbind M_bind emit get_world set_keyspace mret M_ret].
  cbn [now keyspace trace]. rewrite Ho, Hs. cbn. split; apply lookup_insert_eq.
Qed.

Lemma sync_lock_ttl_longer_witness :
  onboard_lock_ttl = 30 /\ sync_lock_ttl = 60 /\ onboard_lock_ttl < sync_lock_ttl /\
  keyspace (fst (acquire_lock (onboard_lock_name "svc-a") onboard_lock_ttl empty_world))
    !! lock_key_of (onboard_lock_name "svc-a") = Some (Entry VLockMarker (Some (now empty_world + 30))) /\
  keyspace (fst (acquire_lock (sync_lock_name "svc-a") sync_lock_ttl empty_world))
    !! lock_key_of (sync_lock_name "svc-a") = Some (Entry VLockMarker (Some (now empty_world + 60))).
Proof. apply (sync_lock_ttl_longer "svc-a" empty_world); reflexivity. Defined.

(** C9 (as the code stands).  The manifest that [ArgoCDManager.create_application]
    posts has no [spec.source] and no [spec.syncPolicy], and its destination
    namespace is always ["default"]; the call from main.py does not bind
    either, since it passes [repo], [path] and [revision]. *)
Theorem argocd_manager_manifest_incomplete :
  json_path ["spec"; "source"] (argocd_manager_manifest "svc-a" "prod") = None /\
  json_path ["spec"; "syncPolicy"] (argocd_manager_manifest "svc-a" "prod") = None /\
  json_path ["spec"; "destination"; "namespace"] (argocd_manager_manifest "svc-a" "prod")
    = Some (JStr "default") /\
  ~ encodes_registration svc_a (argocd_manager_manifest (a_name svc_a) (a_cluster svc_a)) /\
  main_argocd_create_call svc_a =
    Raise (Exc "TypeError" "ArgoCDManager.create_application() got an unexpected keyword argument 'repo'").
Proof.
  split; [reflexivity|]. split; [reflexivity|]. split; [reflexivity|].
  split; [|reflexivity].
  intros [Hsrc _]. cbv in Hsrc. discriminate.
Qed.

(** The sibling [create_argocd_application] (src/cli.py) does encode the
    source, the destination namespace and the automated policy. *)
Lemma cli_argocd_manifest_encodes ns (a : onboard_args) :
  encodes_registration a (cli_argocd_manifest ns a).
Proof. repeat split. Qed.

(** C10. Lock keys ["lock:" ++ l] and snapshot keys ["app:" ++ n ++ ":state"]
    never coincide; [acquire_lock] and [release_lock] touch only their lock
    key and leave every snapshot key as it was, [cache_application_state]
    touches only its snapshot key and leaves every lock key as it was, and
    [get_cached_state] only reads its snapshot key. *)
Theorem lock_and_state_keys_disjoint :
  (forall l n, lock_key_of l <> state_key n) /\
  (forall l ttl n w,
     keyspace (fst (acquire_lock l ttl w)) !! state_key n = keyspace w !! state_key n /\
     trace (fst (acquire_lock l ttl w)) = trace w ++ [ERedis "SET NX EX" (lock_key_of l)]) /\
  (forall l n w,
     keyspace (fst (release_lock l w)) !! state_key n = keyspace w !! state_key n /\
     trace (fst (release_lock l w)) = trace w ++ [ERedis "DEL" (lock_key_of l)]) /\
  (forall n j ttl l w,
     keyspace (fst (cache_application_state n j ttl w)) !! lock_key_of l
       = keyspace w !! lock_key_of l /\
     trace (fst (cache_application_state n j ttl w)) = trace w ++ [ERedis "SETEX" (state_key n)]) /\
  (forall n w, fst (get_cached_state n w) =
                 World (now w) (keyspace w) (trace w ++ [ERedis "GET" (state_key n)])).
Proof.
  split; [exact lock_state_key_ne|].
  cbv [acquire_lock release_lock cache_application_state get_cached_state redis_set_nx_ex
       redis_delete redis_setex redis_get mbind M_bind emit get_world set_keyspace mret M_ret].
  repeat split; intros; cbn [now keyspace trace fst]; try reflexivity.
  - destruct (live_lookup _ _ _); cbn; [reflexivity|].
    apply lookup_insert_ne. apply lock_state_key_ne.
  - destruct (live_lookup _ _ _); reflexivity.
  - apply lookup_delete_ne. apply lock_state_key_ne.
  - apply lookup_insert_ne. intros H. symmetry in H. revert H. apply lock_state_key_ne.
Qed.

(* ================================================================== *)
(** * Further properties of the code *)






Lemma getattr_missing :
  py_getattr "DBManager" dbmanager_attrs "get_application" =
  Raise (Exc "AttributeError" "'DBManager' object has no attribute 'get_application'").
Proof. reflexivity. Qed.

(** Extra. [status] never writes Redis, whatever the cache and the record
    store hold; when a live snapshot that is truthy is cached, it is what
    [status] returns. *)
Theorem status_read_only gi n (w : world) v :
  e_val <$> live_lookup (now w) (keyspace w) (state_key n) = Some v ->
  truthy (json_loads v) = true ->
  snd (status gi n w) = Ok (Some (json_loads v)) /\
  (forall w', keyspace (fst (status gi n w')) = keyspace w').
Proof.
  intros Hv Ht. split.
  - cbv [status get_cached_state redis_get mbind M_bind mret M_ret emit get_world].
    cbn [now keyspace trace]. rewrite Hv. cbn. rewrite Ht. reflexivity.
  - intros w'.
    cbv [status get_cached_state redis_get db_get_application log lift
         mbind M_bind mret M_ret emit get_world].
    cbn [now keyspace trace]. rewrite getattr_missing.
    destruct (truthy_opt _); reflexivity.
Qed.

Lemma status_read_only_witness :
  snd (status (fun _ => Ok None) "svc-a" cached_world) =
    Ok (Some (json_loads (VJson (active_state svc_a)))) /\
  (forall w', keyspace (fst (status (fun _ => Ok None) "svc-a" w')) = keyspace w').
Proof.
  apply (status_read_only (fun _ => Ok None) "svc-a" cached_world (VJson (active_state svc_a)));
    reflexivity.
Defined.


(** Extra. When the sync lock of [n] is live, [sync] raises
    [RuntimeError("Sync already in progress for " ++ n)] after the failed
    [SET NX], with no controller call and no Redis change. *)
Theorem sync_lock_held sc n (w : world) e :
  live_lookup (now w) (keyspace w) (lock_key_of (sync_lock_name n)) = Some e ->
  sync sc n w =
    (World (now w) (keyspace w) (trace w ++ [ERedis "SET NX EX" (lock_key_of (sync_lock_name n))]),
     Raise (Exc "RuntimeError" ("Sync already in progress for " +:+ n))).
Proof.
  intros H. cbv [sync acquire_lock redis_set_nx_ex mbind M_bind mret M_ret emit get_world raise].
  cbn [now keyspace trace]. rewrite H. reflexivity.
Qed.

Lemma sync_lock_held_witness :
  sync sync_ok "svc-a" both_locks_world =
    (World (now both_locks_world) (keyspace both_locks_world)
       (trace both_locks_world ++ [ERedis "SET NX EX" (lock_key_of (sync_lock_name "svc-a"))]),
     Raise (Exc "RuntimeError" ("Sync already in progress for " +:+ "svc-a"))).
Proof.
  apply (sync_lock_held sync_ok "svc-a" both_locks_world (Entry VLockMarker (Some 60)));
    reflexivity.
Defined.

(** Extra. With the sync lock free: if the controller's sync call succeeds,
    [sync] writes the [syncing] snapshot and releases the lock; if it
    raises, [sync] re-raises the same exception, writes no snapshot (the
    previous one, if any, is kept) and still releases the lock. *)
Theorem sync_outcomes sc n (w : world) :
  live_lookup (now w) (keyspace w) (lock_key_of (sync_lock_name n)) = None ->
  let lk := lock_key_of (sync_lock_name n) in
  match sc n with
  | Ok _ =>
      snd (sync sc n w) = Ok () /\
      trace (fst (sync sc n w)) = trace w ++
        [ERedis "SET NX EX" lk; EController "sync_application" n; ERedis "SETEX" (state_key n);
         ELog "INFO" ("Sync triggered for " +:+ n); ERedis "DEL" lk] /\
      live_lookup (now w) (keyspace (fst (sync sc n w))) (state_key n) =
        Some (Entry (VJson syncing_state) (Some (now w + cache_default_ttl))) /\
      keyspace (fst (sync sc n w)) !! lk = None
  | Raise e =>
      snd (sync sc n w) = Raise e /\
      trace (fst (sync sc n w)) = trace w ++
        [ERedis "SET NX EX" lk; EController "sync_application" n; ERedis "DEL" lk] /\
      keyspace (fst (sync sc n w)) !! state_key n = keyspace w !! state_key n /\
      keyspace (fst (sync sc n w)) !! lk = None
  end.
Proof.
  intros H lk.
  cbv [sync acquire_lock release_lock redis_set_nx_ex redis_delete redis_setex
       cache_application_state argocd_sync_application log lift try_finally
       mbind M_bind mret M_ret emit get_world set_keyspace].
  cbn [now keyspace trace]. rewrite H. cbn [now keyspace trace negb].
  destruct (sc n) as [r|e]; cbn [now keyspace trace fst snd].
  - split; [reflexivity|]. split; [rewrite <- !app_assoc; reflexivity|]. split.
    + unfold live_lookup.
      rewrite lookup_delete_ne by (apply lock_state_key_ne).
      rewrite lookup_insert_eq. unfold is_live. cbn.
      rewrite bool_decide_true by (unfold cache_default_ttl; lia). reflexivity.
    + apply lookup_delete_eq.
  - split; [reflexivity|]. split; [rewrite <- !app_assoc; reflexivity|]. split.
    + rewrite lookup_delete_ne by (apply lock_state_key_ne).
      rewrite lookup_insert_ne by (apply lock_state_key_ne).
      reflexivity.
    + apply lookup_delete_eq.
Qed.

Lemma sync_outcomes_witness :
  snd (sync sync_ok "svc-a" empty_world) = Ok () /\
  trace (fst (sync sync_ok "svc-a" empty_world)) = trace empty_world ++
    [ERedis "SET NX EX" (lock_key_of (sync_lock_name "svc-a"));
     EController "sync_application" "svc-a"; ERedis "SETEX" (state_key "svc-a");
     ELog "INFO" ("Sync triggered for " +:+ "svc-a");
     ERedis "DEL" (lock_key_of (sync_lock_name "svc-a"))] /\
  live_lookup (now empty_world) (keyspace (fst (sync sync_ok "svc-a" empty_world)))
    (state_key "svc-a") =
    Some (Entry (VJson syncing_state) (Some (now empty_world + cache_default_ttl))) /\
  keyspace (fst (sync sync_ok "svc-a" empty_world)) !! lock_key_of (sync_lock_name "svc-a") = None.
Proof. apply (sync_outcomes sync_ok "svc-a" empty_world). reflexivity. Defined.



(** Extra. When every collaborator succeeds and [valid] is truthy,
    [onboard] calls the generator, the validator, the record store and the
    controller in that order, caches the [active] snapshot with the
    cluster, releases the lock and returns normally. *)
Theorem onboard_success go dbc argc (a : onboard_args) (w : world)
    helm manifest validation v r :
  live_lookup (now w) (keyspace w) (lock_key_of (onboard_lock_name (a_name a))) = None ->
  go "generate-helm" (generate_payload a) = Ok helm ->
  py_getitem helm "manifest" = Ok manifest ->
  go "validate-k8s" (validate_payload a manifest) = Ok validation ->
  py_get validation "valid" = Ok v -> truthy_opt v = true ->
  dbc a = Ok () -> argc a = Ok r ->
  let lk := lock_key_of (onboard_lock_name (a_name a)) in
  exists w',
    onboard go dbc argc a w = (w', Ok ()) /\
    trace w' = trace w ++
      [ERedis "SET NX EX" lk;
       ELog "INFO" ("Starting onboarding for " +:+ a_name a);
       EGo "generate-helm" (generate_payload a);
       EGo "validate-k8s" (validate_payload a manifest);
       ERecordStore "create_application" (a_name a);
       EController "create_application" (a_name a);
       ERedis "SETEX" (state_key (a_name a));
       ELog "INFO" ("Successfully onboarded " +:+ a_name a);
       ERedis "DEL" lk] /\
    live_lookup (now w') (keyspace w') (state_key (a_name a)) =
      Some (Entry (VJson (active_state a)) (Some (now w + cache_default_ttl))) /\
    keyspace w' !! lk = None.
Proof.
  intros Hl Hg Hm Hv Hvalid Ht Hdb Har lk.
  run_m. rewrite Hl, Hg. cbn. rewrite Hm. cbn. rewrite Hv. cbn. rewrite Hvalid. cbn.
  rewrite Ht. cbn. rewrite Hdb. cbn. rewrite Har. cbn.
  eexists; split; [reflexivity|]. cbn [now keyspace trace].
  split; [rewrite <- !app_assoc; reflexivity|]. split.
  - unfold live_lookup.
    rewrite lookup_delete_ne by (apply lock_state_key_ne).
    rewrite lookup_insert_eq. unfold is_live. cbn.
    rewrite bool_decide_true by (unfold cache_default_ttl; lia). reflexivity.
  - apply lookup_delete_eq.
Qed.

Lemma onboard_success_witness :
  let lk := lock_key_of (onboard_lock_name (a_name svc_a)) in
  exists w',
    onboard (go_stub true) (fun _ => Ok ()) (fun _ => Ok JNull) svc_a empty_world = (w', Ok ()) /\
    trace w' = trace empty_world ++
      [ERedis "SET NX EX" lk;
       ELog "INFO" ("Starting onboarding for " +:+ a_name svc_a);
       EGo "generate-helm" (generate_payload svc_a);
       EGo "validate-k8s" (validate_payload svc_a (JStr "kind: Deployment"));
       ERecordStore "create_application" (a_name svc_a);
       EController "create_application" (a_name svc_a);
       ERedis "SETEX" (state_key (a_name svc_a));
       ELog "INFO" ("Successfully onboarded " +:+ a_name svc_a);
       ERedis "DEL" lk] /\
    live_lookup (now w') (keyspace w') (state_key (a_name svc_a)) =
      Some (Entry (VJson (active_state svc_a)) (Some (now empty_world + cache_default_ttl))) /\
    keyspace w' !! lk = None.
Proof.
  apply (onboard_success (go_stub true) (fun _ => Ok ()) (fun _ => Ok JNull) svc_a empty_world
           (JDict [("manifest", JStr "kind: Deployment")]) (JStr "kind: Deployment")
           (JDict [("valid", JBool true); ("error", JStr "bad values")])
           (Some (JBool true)) JNull); reflexivity.
Defined.


(** Extra. With main.py's own record-store call, every [onboard] that takes
    the lock ends in an exception, whatever the Go service answers: the
    Delivery Controller is never called and the cached snapshot is the
    [failed] one for that exception. *)
Theorem onboard_main_calls_always_fail go argc (a : onboard_args) (w : world) :
  live_lookup (now w) (keyspace w) (lock_key_of (onboard_lock_name (a_name a))) = None ->
  exists e evs,
    onboard go main_db_create_call argc a w =
      (World (now w) (keyspace (fst (onboard go main_db_create_call argc a w)))
             (trace w ++ evs), Raise e) /\
    existsb is_controller_call evs = false /\
    live_lookup (now w) (keyspace (fst (onboard go main_db_create_call argc a w)))
      (state_key (a_name a)) =
      Some (Entry (VJson (onboard_failed_state e)) (Some (now w + cache_default_ttl))).
Proof.
  intros Hl.
  run_m. rewrite Hl. cbn [now keyspace trace negb].
  replace (main_db_create_call a) with (@Raise unit (Exc "TypeError"
    "DBManager.create_application() got an unexpected keyword argument 'namespace'"))
    by reflexivity.
  repeat match goal with
         | |- context [match ?x with Ok _ => _ | Raise _ => _ end] =>
             lazymatch x with
             | context [World] => fail
             | _ => destruct x
             end
         | |- context [if ?b then _ else _] =>
             lazymatch b with
             | context [World] => fail
             | _ => destruct b
             end
         end;
  cbn [now keyspace trace fst snd];
  (do 2 eexists; split; [rewrite <- !app_assoc; reflexivity|]); split;
  try reflexivity;
  (unfold live_lookup;
   rewrite lookup_delete_ne by (apply lock_state_key_ne);
   rewrite lookup_insert_eq; unfold is_live; cbn;
   rewrite bool_decide_true by (unfold cache_default_ttl; lia); reflexivity).
Qed.

Lemma onboard_main_calls_always_fail_witness :
  exists e evs,
    onboard (go_stub true) main_db_create_call main_argocd_create_call svc_a empty_world =
      (World (now empty_world)
             (keyspace (fst (onboard (go_stub true) main_db_create_call main_argocd_create_call
                               svc_a empty_world)))
             (trace empty_world ++ evs), Raise e) /\
    existsb is_controller_call evs = false /\
    live_lookup (now empty_world)
      (keyspace (fst (onboard (go_stub true) main_db_create_call main_argocd_create_call
                        svc_a empty_world)))
      (state_key (a_name svc_a)) =
      Some (Entry (VJson (onboard_failed_state e)) (Some (now empty_world + cache_default_ttl))).
Proof.
  apply (onboard_main_calls_always_fail (go_stub true) main_argocd_create_call svc_a empty_world).
  reflexivity.
Defined.

Lemma py_all_in_true ss c :
  py_all_in ss c = Ok true -> Forall (fun s => py_contains s c = Ok true) ss.
Proof.
  induction ss as [|s ss IH]; cbn; [constructor|].
  destruct (py_contains s c) as [[]|] eqn:E; intros H; try discriminate.
  constructor; [exact E | apply IH, H].
Qed.

(** Extra. [_load_config] either returns the loaded document unchanged,
    and then each of [redis], [postgresql], [argocd] and [go_service] is
    [in] it, or it raises [SystemExit(1)]; it lets no other exception out. *)
Theorem main_load_config_outcome (loaded : result json) :
  match main_load_config loaded with
  | Ok c => loaded = Ok c /\ Forall (fun s => py_contains s c = Ok true) required_sections
  | Raise e => e = system_exit
  end.
Proof.
  unfold main_load_config. destruct loaded as [c|e]; [|reflexivity].
  destruct (py_all_in required_sections c) as [[]|] eqn:E; try reflexivity.
  split; [reflexivity|]. apply py_all_in_true, E.
Qed.

(** Extra. An [INFRIKIT_CONFIG] set to the empty string is used as the path
    as it is, with no fallback to [~/.infrakit/config.yaml]: loading fails
    with [FileNotFoundError] and [_load_config] exits with status 1. *)
Theorem settings_empty_env_var yaml home (fs : gmap string string) :
  fs !! ""%string = None ->
  settings_load_config yaml (Some ""%string) home fs =
    Raise (Exc "FileNotFoundError" "Config file not found: ") /\
  main_load_config (settings_load_config yaml (Some ""%string) home fs) = Raise system_exit.
Proof. intros H. unfold settings_load_config. rewrite H. split; reflexivity. Qed.

Lemma settings_empty_env_var_witness :
  settings_load_config (fun _ => Ok (JDict [])) (Some ""%string) "/root"
      {["/root/.infrakit/config.yaml" := "redis: {}"]} =
    Raise (Exc "FileNotFoundError" "Config file not found: ") /\
  main_load_config (settings_load_config (fun _ => Ok (JDict [])) (Some ""%string) "/root"
      {["/root/.infrakit/config.yaml" := "redis: {}"]}) = Raise system_exit.
Proof.
  apply (settings_empty_env_var (fun _ => Ok (JDict [])) "/root"
           {["/root/.infrakit/config.yaml" := "redis: {}"]}); reflexivity.
Defined.

(** Extra. [main] runs [cli.sync(args)] with the argparse namespace, so the
    name [n] below is whatever string the namespace formats to; for every
    such [n] the command fails (exit status 1).  When its lock is held it
    raises [RuntimeError] with Redis unchanged; otherwise the missing
    [ArgoCDManager.sync_application] raises [AttributeError] before any
    snapshot is cached, and the [finally] removes the lock it took, leaving
    every other key as it was. *)
Theorem main_sync_never_succeeds n (w : world) :
  let lk := lock_key_of (sync_lock_name n) in
  exit_status (snd (sync main_argocd_sync_call n w)) = 1 /\
  match live_lookup (now w) (keyspace w) lk with
  | Some _ =>
      snd (sync main_argocd_sync_call n w) =
        Raise (Exc "RuntimeError" ("Sync already in progress for " +:+ n)) /\
      keyspace (fst (sync main_argocd_sync_call n w)) = keyspace w
  | None =>
      snd (sync main_argocd_sync_call n w) =
        Raise (Exc "AttributeError" (quote "ArgoCDManager" +:+ " object has no attribute " +:+
                                     quote "sync_application")) /\
      keyspace (fst (sync main_argocd_sync_call n w)) = delete lk (keyspace w)
  end.
Proof.
  intros lk.
  cbv [sync acquire_lock release_lock redis_set_nx_ex redis_delete argocd_sync_application
       log lift raise try_finally mbind M_bind mret M_ret emit get_world set_keyspace].
  cbn [now keyspace trace].
  subst lk.
  destruct (live_lookup (now w) (keyspace w) (lock_key_of (sync_lock_name n)));
    cbn [now keyspace trace negb fst snd].
  - repeat split.
  - repeat split. apply delete_insert_eq.
Qed.

Lemma main_sync_never_succeeds_witness :
  exit_status (snd (sync main_argocd_sync_call "svc-a" both_locks_world)) = 1 /\
  snd (sync main_argocd_sync_call "svc-a" both_locks_world) =
    Raise (Exc "RuntimeError" ("Sync already in progress for " +:+ "svc-a")) /\
  keyspace (fst (sync main_argocd_sync_call "svc-a" both_locks_world)) = keyspace both_locks_world.
Proof.
  destruct (main_sync_never_succeeds "svc-a" both_locks_world) as [H1 H2].
  split; [exact H1|]. exact H2.
Defined.

Ltac run_c :=
  cbv [mbind CM_bind mret CM_ret c_emit c_post c_print c_lift c_raise
       cli_onboard_application cli_store_application cli_call_go_service
       cli_create_argocd_application cli_get_application_status];
  cbn [c_now c_table c_posts c_trace c_stdout].

(** Extra. The draft [onboard_application] upserts the record before it
    runs the Go service: when generation fails the row is already stored
    and nothing is posted or printed.  A [CalledProcessError] becomes
    [SystemExit(1)] when its stderr decodes, and the decoding error
    otherwise; any other error propagates as it is. *)
Theorem cli_onboard_stores_first api ns go dec post (a : onboard_args) (w : cli_world) e :
  go "generate-helm" (cli_generate_payload a) = Raise e ->
  let r := cli_onboard_application api ns go dec post a w in
  c_table (fst r) = store_application a (c_now w) (c_table w) /\
  c_posts (fst r) = c_posts w /\
  c_stdout (fst r) = c_stdout w /\
  (exists evs, c_trace (fst r) =
     c_trace w ++ [ELog "INFO" ("Starting onboarding for " +:+ a_name a);
                   ERecordStore "upsert" (a_name a);
                   EGo "generate-helm" (cli_generate_payload a)] ++ evs) /\
  snd r = Raise (if bool_decide (exc_type e = "CalledProcessError")
                 then match dec e with Ok _ => system_exit | Raise e' => e' end
                 else e).
Proof.
  intros H r. subst r. run_c. rewrite H.
  destruct (bool_decide _); [destruct (dec e) as [msg|e']|]; cbn;
    (split; [reflexivity|]); (split; [reflexivity|]); (split; [reflexivity|]);
    (split; [|reflexivity]); rewrite <- !app_assoc; eexists; reflexivity.
Qed.

Lemma cli_onboard_stores_first_witness :
  let r := cli_onboard_application "https://argocd.example.com" "argocd" go_exit_1 stderr_utf8
             post_created svc_a empty_cli_world in
  c_table (fst r) = store_application svc_a (c_now empty_cli_world) (c_table empty_cli_world) /\
  c_posts (fst r) = c_posts empty_cli_world /\
  c_stdout (fst r) = c_stdout empty_cli_world /\
  (exists evs, c_trace (fst r) =
     c_trace empty_cli_world ++ [ELog "INFO" ("Starting onboarding for " +:+ a_name svc_a);
                                 ERecordStore "upsert" (a_name svc_a);
                                 EGo "generate-helm" (cli_generate_payload svc_a)] ++ evs) /\
  snd r = Raise system_exit.
Proof.
  apply (cli_onboard_stores_first "https://argocd.example.com" "argocd" go_exit_1 stderr_utf8
           post_created svc_a empty_cli_world
           (Exc "CalledProcessError" "returned non-zero exit status 1")); reflexivity.
Defined.

(** Extra. Once generation succeeds, the draft [onboard_application] posts
    exactly one manifest, which encodes the source, the destination
    namespace and the automated prune + self-heal policy; the command
    succeeds only on status 200, any other status (201 included) exits 1. *)
Theorem cli_onboard_registration api ns go dec post (a : onboard_args) (w : cli_world) helm mp resp :
  go "generate-helm" (cli_generate_payload a) = Ok helm ->
  py_getitem helm "manifest_path" = Ok mp ->
  post (applications_url api) (cli_argocd_manifest ns a) = Ok resp ->
  cli_onboard_application api ns go dec post a w =
    (CliWorld (c_now w) (store_application a (c_now w) (c_table w))
       (c_posts w ++ [(applications_url api, cli_argocd_manifest ns a)])
       (c_trace w ++ [ELog "INFO" ("Starting onboarding for " +:+ a_name a);
                      ERecordStore "upsert" (a_name a); EGo "generate-helm" (cli_generate_payload a);
                      if bool_decide (status_code resp = 200)
                      then ELog "INFO" ("Successfully onboarded " +:+ a_name a)
                      else ELog "ERROR" ("ArgoCD API error: " +:+ text resp)])
       (c_stdout w),
     if bool_decide (status_code resp = 200) then Ok () else Raise system_exit) /\
  encodes_registration a (cli_argocd_manifest ns a).
Proof.
  intros Hg Hm Hp. split; [|repeat split].
  run_c. rewrite Hg. cbn. rewrite Hm. cbn. rewrite Hp. rewrite <- !app_assoc.
  destruct (bool_decide _); cbn; rewrite <- !app_assoc; reflexivity.
Qed.

Lemma cli_onboard_registration_witness :
  cli_onboard_application "https://argocd.example.com" "argocd" go_manifest_path stderr_utf8 post_created svc_a empty_cli_world =
    (CliWorld (c_now empty_cli_world) (store_application svc_a (c_now empty_cli_world)
                                         (c_table empty_cli_world))
       (c_posts empty_cli_world ++ [(applications_url "https://argocd.example.com", cli_argocd_manifest "argocd" svc_a)])
       (c_trace empty_cli_world ++
          [ELog "INFO" ("Starting onboarding for " +:+ a_name svc_a);
           ERecordStore "upsert" (a_name svc_a); EGo "generate-helm" (cli_generate_payload svc_a);
           if bool_decide (status_code (Response 201 "created" (JDict [])) = 200)
           then ELog "INFO" ("Successfully onboarded " +:+ a_name svc_a)
           else ELog "ERROR" ("ArgoCD API error: " +:+ text (Response 201 "created" (JDict [])))])
       (c_stdout empty_cli_world),
     if bool_decide (status_code (Response 201 "created" (JDict [])) = 200) then Ok ()
     else Raise system_exit) /\
  encodes_registration svc_a (cli_argocd_manifest "argocd" svc_a).
Proof.
  apply (cli_onboard_registration "https://argocd.example.com" "argocd" go_manifest_path stderr_utf8 post_created svc_a
           empty_cli_world (JDict [("manifest_path", JStr "generated/svc-a")])
           (JStr "generated/svc-a") (Response 201 "created" (JDict []))); reflexivity.
Defined.

Lemma cli_onboard_table api ns go dec post (a : onboard_args) (w : cli_world) :
  c_table (fst (cli_onboard_application api ns go dec post a w)) =
    store_application a (c_now w) (c_table w) /\
  c_now (fst (cli_onboard_application api ns go dec post a w)) = c_now w.
Proof.
  run_c. destruct (go _ _) as [helm|e]; cbn.
  - destruct (py_getitem helm "manifest_path"); cbn; [|split; reflexivity].
    destruct (post _ _); cbn; [|split; reflexivity].
    destruct (bool_decide _); split; reflexivity.
  - destruct (bool_decide _); [destruct (dec e)|]; cbn; split; reflexivity.
Qed.

(** Extra. Running the draft [onboard_application] twice for one name, with
    any outcome of the first run, leaves exactly one row for that name,
    holding the second run's values. *)
Theorem cli_onboard_twice_one_row api ns go dec post (a1 a2 : onboard_args) (w : cli_world) :
  a_name a1 = a_name a2 ->
  (length (rows_named (a_name a1) (c_table w)) <= 1)%nat ->
  let w1 := fst (cli_onboard_application api ns go dec post a1 w) in
  let w2 := fst (cli_onboard_application api ns go dec post a2 w1) in
  rows_named (a_name a2) (c_table w2) =
    [Row (a_name a2) (a_cluster a2) (Some (a_namespace a2)) (a_chart a2)
         (Some (a_repo a2)) (Some (a_revision a2)) (Some (a_path a2)) (c_now w)].
Proof.
  intros Hn Hle. cbv zeta.
  destruct (cli_onboard_table api ns go dec post a1 w) as [Ht1 Hn1].
  rewrite (proj1 (cli_onboard_table api ns go dec post a2 _)), Hn1, Ht1.
  apply store_application_upsert. rewrite <- Hn.
  rewrite store_application_upsert by exact Hle. cbn. lia.
Qed.

Lemma cli_onboard_twice_one_row_witness :
  let w1 := fst (cli_onboard_application "https://argocd.example.com" "argocd" go_exit_1 stderr_utf8 post_created svc_a empty_cli_world) in
  let w2 := fst (cli_onboard_application "https://argocd.example.com" "argocd" go_exit_1 stderr_utf8 post_created
                   (OnboardArgs "svc-a" "staging" "team-a" "charts/svc" "git@example.com:infra.git" "apps/svc-a" "main" None None) w1) in
  rows_named "svc-a" (c_table w2) =
    [Row "svc-a" "staging" (Some "team-a"%string) "charts/svc"
         (Some "git@example.com:infra.git"%string) (Some "main"%string)
         (Some "apps/svc-a"%string) (c_now empty_cli_world)].
Proof.
  apply (cli_onboard_twice_one_row "https://argocd.example.com" "argocd" go_exit_1 stderr_utf8 post_created svc_a
           (OnboardArgs "svc-a" "staging" "team-a" "charts/svc" "git@example.com:infra.git" "apps/svc-a" "main" None None) empty_cli_world); cbn; [reflexivity | lia].
Defined.

(** Extra. The draft [get_application_status] prints the header line before
    it reads the fields: a 200 answer without [status.health] prints
    "Status for <name>:" and then raises the [KeyError]. *)
Theorem cli_status_partial_output api get (n : string) (w : cli_world) resp st e :
  get (api +:+ "/api/v1/applications/" +:+ n) = Ok resp ->
  status_code resp = 200 ->
  py_getitem (body resp) "status" = Ok st ->
  py_getitem st "health" = Raise e ->
  cli_get_application_status api get n w =
    (CliWorld (c_now w) (c_table w) (c_posts w) (c_trace w)
       (c_stdout w ++ ["Status for " +:+ n +:+ ":"]), Raise e).
Proof.
  intros Hg Hs Hst Hh. run_c. rewrite Hg. cbn. rewrite Hs. cbn.
  rewrite Hst. cbn. rewrite Hh. reflexivity.
Qed.

Lemma cli_status_partial_output_witness :
  cli_get_application_status "https://argocd.example.com" get_without_health "svc-a" empty_cli_world =
    (CliWorld (c_now empty_cli_world) (c_table empty_cli_world) (c_posts empty_cli_world)
       (c_trace empty_cli_world)
       (c_stdout empty_cli_world ++ ["Status for " +:+ "svc-a" +:+ ":"]),
     Raise (Exc "KeyError" "'health'")).
Proof.
  apply (cli_status_partial_output "https://argocd.example.com" get_without_health "svc-a" empty_cli_world
           (Response 200 "" (JDict [("status", JDict [("sync", JDict [("status", JStr "Synced")])])]))
           (JDict [("sync", JDict [("status", JStr "Synced")])])); reflexivity.
Defined.

(** Extra. The onboarding and sync locks of one name are different keys, so
    a held onboarding lock never blocks [sync]: with the sync lock free,
    taking the onboarding lock and then the sync lock both succeed. *)
Theorem onboard_lock_does_not_block_sync n (w : world) :
  live_lookup (now w) (keyspace w) (lock_key_of (sync_lock_name n)) = None ->
  lock_key_of (onboard_lock_name n) <> lock_key_of (sync_lock_name n) /\
  snd ((acquire_lock (onboard_lock_name n) onboard_lock_ttl;;
        acquire_lock (sync_lock_name n) sync_lock_ttl) w) = Ok true.
Proof.
  intros H.
  assert (Hk : lock_key_of (onboard_lock_name n) <> lock_key_of (sync_lock_name n))
    by (unfold lock_key_of, onboard_lock_name, sync_lock_name; cbn; intros Heq; inversion Heq).
  split; [exact Hk|].
  cbv [acquire_lock redis_set_nx_ex mbind M_bind mret M_ret emit get_world set_keyspace].
  cbn [now keyspace trace].
  destruct (live_lookup (now w) (keyspace w) (lock_key_of (onboard_lock_name n)));
    cbn [now keyspace trace].
  - rewrite H. reflexivity.
  - unfold live_lookup in *. rewrite lookup_insert_ne by exact Hk. rewrite H. reflexivity.
Qed.

Lemma onboard_lock_does_not_block_sync_witness :
  lock_key_of (onboard_lock_name "svc-a") <> lock_key_of (sync_lock_name "svc-a") /\
  snd ((acquire_lock (onboard_lock_name "svc-a") onboard_lock_ttl;;
        acquire_lock (sync_lock_name "svc-a") sync_lock_ttl) held_world) = Ok true.
Proof. apply (onboard_lock_does_not_block_sync "svc-a" held_world). reflexivity. Defined.
